(** * The Website component (src/serverless.js)

    A shallow embedding of the two operations of the [Website] class,
    [default] (deploy) and [remove], together with the properties of their
    call sequences, of the persisted state and of the returned outputs.

    The component talks to its collaborators (the host framework, the child
    bucket components, the S3 and Route53 helpers of [./utils], the file
    system and the shell) through awaited calls. Each of those calls is an
    [event] of a trace; whether it resolves or rejects is decided by the
    [host], as a function of the calls made so far. *)

From Stdlib Require Import String Ascii List Bool Arith ZArith DecimalString Lia.
Import ListNotations.
Open Scope string_scope.
Set Warnings "-register-all".

(** ** JavaScript values used by the component *)

Definition dq : ascii := ascii_of_nat 34.
Definition bs : ascii := ascii_of_nat 92.
Definition nl : ascii := ascii_of_nat 10.

(** A property that holds a string or is [undefined]. *)
Definition jsval := option string.

Definition truthy_str (s : string) : bool :=
  match s with EmptyString => false | String _ _ => true end.

(** Truthiness: [undefined] and the empty string are falsy. *)
Definition truthy (v : jsval) : bool :=
  match v with Some s => truthy_str s | None => false end.

(** [a || b] *)
Definition js_or (a b : jsval) : jsval := if truthy a then a else b.

(** [a !== b] on strings and [undefined]. *)
Definition js_strict_neq (a b : jsval) : bool :=
  match a, b with
  | Some x, Some y => negb (String.eqb x y)
  | None, None => false
  | _, _ => true
  end.

(** A value interpolated in a template literal. *)
Definition show (v : jsval) : string :=
  match v with Some s => s | None => "undefined" end.

(** JSON-serializable values of the [env] mapping. Numbers are the integers
    that JavaScript prints in plain decimal notation. *)
Inductive json : Type :=
| JNull
| JBool (b : bool)
| JNum (z : Z)
| JStr (s : string)
| JArr (xs : list json)
| JObj (kvs : list (string * json)).

Definition hex_digit (n : nat) : ascii :=
  nth n ["0"; "1"; "2"; "3"; "4"; "5"; "6"; "7"; "8"; "9";
         "a"; "b"; "c"; "d"; "e"; "f"]%char "0"%char.

(** One code unit of a string inside a JSON string literal. *)
Definition JSON_escape (c : ascii) : string :=
  let n := nat_of_ascii c in
  if (n =? 8)%nat then String bs "b"
  else if (n =? 9)%nat then String bs "t"
  else if (n =? 10)%nat then String bs "n"
  else if (n =? 12)%nat then String bs "f"
  else if (n =? 13)%nat then String bs "r"
  else if (n =? 34)%nat then String bs (String dq EmptyString)
  else if (n =? 92)%nat then String bs (String bs EmptyString)
  else if (n <? 32)%nat then
    String bs ("u00" ++ String (hex_digit (n / 16))
                          (String (hex_digit (n mod 16)) EmptyString))
  else String c EmptyString.

Fixpoint JSON_escape_string (s : string) : string :=
  match s with
  | EmptyString => EmptyString
  | String c r => JSON_escape c ++ JSON_escape_string r
  end.

Definition JSON_quote (s : string) : string :=
  String dq (JSON_escape_string s ++ String dq EmptyString).

(** [JSON.stringify(v)] *)
Fixpoint JSON_stringify (v : json) : string :=
  match v with
  | JNull => "null"
  | JBool true => "true"
  | JBool false => "false"
  | JNum z => NilEmpty.string_of_int (Z.to_int z)
  | JStr s => JSON_quote s
  | JArr xs =>
      "[" ++ (fix elems (l : list json) : string :=
                match l with
                | [] => EmptyString
                | x :: r =>
                    match r with
                    | [] => JSON_stringify x
                    | _ :: _ => JSON_stringify x ++ "," ++ elems r
                    end
                end) xs ++ "]"
  | JObj kvs =>
      "{" ++ (fix members (l : list (string * json)) : string :=
                match l with
                | [] => EmptyString
                | (k, x) :: r =>
                    match r with
                    | [] => JSON_quote k ++ ":" ++ JSON_stringify x
                    | _ :: _ =>
                        JSON_quote k ++ ":" ++ JSON_stringify x ++ "," ++ members r
                    end
                end) kvs ++ "}"
  end.

(** ** Data model *)

(** [inputs.code] *)
Record code : Type := mk_code {
  code_root : jsval;
  code_src : jsval;
  code_hook : jsval
}.

(** The [inputs] object handed to [default]. [in_env] lists the entries of
    [inputs.env] in the order [for ... in] enumerates them. *)
Record inputs : Type := mk_inputs {
  in_code : option code;
  in_region : jsval;
  in_domain : jsval;
  in_env : option (list (string * json))
}.

Definition empty_inputs : inputs := mk_inputs None None None None.

(** The default parameter [inputs = {}]. *)
Definition given (arg : option inputs) : inputs :=
  match arg with Some i => i | None => empty_inputs end.

(** [inputs] after lines 34-40 of [default]. *)
Record resolved : Type := mk_resolved {
  root : string;
  src : jsval;
  hook : jsval;
  region : string;
  domain : jsval;
  bucketName : string;
  env : option (list (string * json))
}.

(** [this.state] *)
Record state : Type := mk_state {
  st_bucketName : jsval;
  st_domain : jsval;
  st_region : jsval;
  st_url : jsval
}.

(** [{}] *)
Definition empty_state : state := mk_state None None None None.

(** The object [default] returns. *)
Record outputs : Type := mk_outputs {
  out_url : string;
  out_env : list (string * json);
  out_domain : jsval
}.

(** A thrown value: its [message] and its [stderr] property. *)
Record js_error : Type := mk_error {
  message : string;
  stderr : jsval
}.

(** [new Error(msg)] *)
Definition Error (msg : string) : js_error := mk_error msg None.

(** [new aws.S3({region, credentials})], [new aws.Route53({region, credentials})] *)
Record client : Type := mk_client {
  client_region : jsval;
  client_credentials : string
}.

(** The calls the component makes, in the order of the source text. The
    first four are synchronous notifications, the others are awaited. *)
Inductive event : Type :=
| Status (msg : string)                          (* this.context.status(msg) *)
| Debug (msg : string)                           (* this.context.debug(msg) *)
| Output (key value : string)                    (* this.context.output(key, value) *)
| ConsoleError (v : jsval)                       (* console.error(v) *)
| Load (component alias : string)                (* this.load(component, alias) *)
| Deploy (alias name : string) (accelerated : bool) (rgn : string)
                                                 (* <alias>({name, accelerated, region}) *)
| Upload (alias dir : string)                    (* <alias>.upload({dir}) *)
| Remove (alias : string)                        (* <alias>.remove() *)
| ConfigureBucketForHosting (s3 : client) (bucket : string)
| ConfigureBucketForRedirect (s3 : client) (bucket target : string)
| ConfigureDomainForBucket (route53 : client) (dom : string) (rgn : jsval)
                           (action : jsval)
| WriteFile (path content : string)              (* utils.writeFile(path, content) *)
| Exec (cmd cwd : string)                        (* exec(cmd, {cwd}) *)
| Save (st : state).                             (* this.save() *)

(** What an awaited call does: it resolves (to a value whose [name] property
    is given, the only property the component reads) or it rejects. *)
Inductive outcome : Type :=
| Resolves (name : jsval)
| Rejects (e : js_error).

(** Everything outside the component: Node's [process] and [path], the
    framework's [context], and the behaviour of the awaited calls given the
    calls made before. *)
Record host : Type := mk_host {
  process_cwd : string;
  path_resolve : string -> string;
  path_join : string -> string -> string;
  context_resourceId : string;
  context_credentials_aws : string;
  respond : list event -> event -> outcome
}.

(** The running component: [this.state], the state store behind
    [this.save()], and the calls made so far. *)
Record component : Type := mk_component {
  this_state : state;
  store : state;
  trace : list event
}.

(** The framework loads the persisted state into [this.state] before an
    operation runs. *)
Definition init (persisted : state) : component :=
  mk_component persisted persisted [].

(** ** A state and exception monad for async methods *)

Inductive result (A : Type) : Type :=
| Ok (a : A)
| Throw (e : js_error).
Arguments Ok {A} a.
Arguments Throw {A} e.

Definition M (A : Type) : Type := component -> component * result A.

Definition ret {A} (a : A) : M A := fun c => (c, Ok a).

Definition throw {A} (e : js_error) : M A := fun c => (c, Throw e).

Definition bind {A B} (m : M A) (f : A -> M B) : M B :=
  fun c =>
    match m c with
    | (c', Ok a) => f a c'
    | (c', Throw e) => (c', Throw e)
    end.

Notation "x <- m ;; k" := (bind m (fun x => k))
  (at level 61, m at next level, right associativity).
Notation "m ;; k" := (bind m (fun _ => k))
  (at level 61, right associativity).

(** [try { m } catch (err) { handler }] *)
Definition try_catch {A} (m : M A) (handler : js_error -> M A) : M A :=
  fun c =>
    match m c with
    | (c', Ok a) => (c', Ok a)
    | (c', Throw e) => handler e c'
    end.

(** [if (b) { m }] *)
Definition when (b : bool) (m : M unit) : M unit :=
  if b then m else ret tt.

Definition record (e : event) (c : component) : component :=
  mk_component (this_state c) (store c) (trace c ++ [e]).

(** A synchronous notification. *)
Definition notify (e : event) : M unit := fun c => (record e c, Ok tt).

Definition get_state : M state := fun c => (c, Ok (this_state c)).

Definition set_state (s : state) : M unit :=
  fun c => (mk_component s (store c) (trace c), Ok tt).

Section Component.

Variable h : host.

(** [await e] *)
Definition await (e : event) : M jsval :=
  fun c =>
    match respond h (trace c) e with
    | Resolves name => (record e c, Ok name)
    | Rejects err => (record e c, Throw err)
    end.

(** [await this.save()]: when it resolves, the store holds [this.state]. *)
Definition save : M unit :=
  fun c =>
    let e := Save (this_state c) in
    match respond h (trace c) e with
    | Resolves _ => (mk_component (this_state c) (this_state c) (trace c ++ [e]), Ok tt)
    | Rejects err => (record e c, Throw err)
    end.

(** Lines 34-40 of [default]: the defaults of [inputs]. *)
Definition normalize (st : state) (i : inputs) : resolved :=
  let c := match in_code i with Some c => c | None => mk_code None None None end in
  let root :=
    if truthy (code_root c) then path_resolve h (show (code_root c))
    else process_cwd h in
  let src :=
    if truthy (code_src c) then Some (path_join h root (show (code_src c)))
    else code_src c in
  let region := show (js_or (in_region i) (Some "us-east-1")) in
  let bucketName :=
    show (js_or (st_bucketName st)
                (js_or (in_domain i) (Some (context_resourceId h)))) in
  mk_resolved root src (code_hook c) region (in_domain i) bucketName (in_env i).

(** [Object.keys(env).length], with [env] possibly [undefined]. *)
Definition has_keys (env : option (list (string * json))) : bool :=
  match env with
  | Some kvs => negb (length kvs =? 0)%nat
  | None => false
  end.

(** Lines 96-101: the text of the environment bundle. *)
Definition env_script (kvs : list (string * json)) : string :=
  fold_left
    (fun script kv =>
       script ++ "window.env." ++ fst kv ++ " = " ++ JSON_stringify (snd kv)
              ++ String ";" (String nl EmptyString))
    kvs ("window.env = {};" ++ String nl EmptyString).


(** The message of the error thrown when the build hook fails. *)
Definition hook_failure (cmd : string) (err : js_error) : string :=
  "Failed building website via " ++ String dq cmd ++ String dq
    " due to the following error: " ++ String dq (show (stderr err))
    ++ String dq EmptyString.

(** [`http://${name}.s3-website-${region}.amazonaws.com`] *)
Definition website_url (name : jsval) (region : string) : string :=
  "http://" ++ show name ++ ".s3-website-" ++ region ++ ".amazonaws.com".

(** [async default(inputs = {})] *)
Definition default (arg : option inputs) : M outputs :=
  notify (Status "Deploying") ;;
  st <- get_state ;;
  let inputs := normalize st (given arg) in
  notify (Status "Preparing AWS S3 Bucket") ;;
  notify (Debug ("Deploying website bucket in " ++ region inputs ++ ".")) ;;
  await (Load "@serverless/aws-s3" "websiteBucket") ;;
  bucketOutputs_name <-
    await (Deploy "websiteBucket" (bucketName inputs) false (region inputs)) ;;
  let s3 := mk_client (Some (region inputs)) (context_credentials_aws h) in
  notify (Debug ("Configuring bucket " ++ bucketName inputs ++ " for website hosting.")) ;;
  await (ConfigureBucketForHosting s3 (bucketName inputs)) ;;
  when (truthy (domain inputs)) (
    let route53 := mk_client (Some (region inputs)) (context_credentials_aws h) in
    let www := "www." ++ show (domain inputs) in
    notify (Debug ("Domain specified. Deploying redirect bucket " ++ www ++ ".")) ;;
    await (Load "@serverless/aws-s3" "redirectBucket") ;;
    await (Deploy "redirectBucket" www false (region inputs)) ;;
    await (ConfigureBucketForRedirect s3 www (show (domain inputs))) ;;
    notify (Debug ("Setting domain " ++ show (domain inputs) ++ " for bucket.")) ;;
    await (ConfigureDomainForBucket route53 (show (domain inputs))
                                    (Some (region inputs)) None) ;;
    await (ConfigureDomainForBucket route53 www (Some (region inputs)) None) ;;
    ret tt) ;;
  st <- get_state ;;
  when (truthy (st_domain st) && js_strict_neq (st_domain st) (domain inputs)) (
    let route53 := mk_client (Some (region inputs)) (context_credentials_aws h) in
    await (ConfigureDomainForBucket route53 (show (st_domain st))
                                    (st_region st) (Some "DELETE")) ;;
    await (ConfigureDomainForBucket route53 ("www." ++ show (st_domain st))
                                    (st_region st) (Some "DELETE")) ;;
    ret tt) ;;
  when (has_keys (env inputs) && truthy_str (root inputs)) (
    notify (Status "Bundling environment variables") ;;
    notify (Debug "Bundling website environment variables.") ;;
    let script := env_script (match env inputs with Some kvs => kvs | None => [] end) in
    let envFilePath := path_join h (root inputs) "env.js" in
    await (WriteFile envFilePath script) ;;
    notify (Debug ("Website env written to file " ++ envFilePath ++ "."))) ;;
  when (truthy (hook inputs)) (
    notify (Status "Building assets") ;;
    notify (Debug ("Running " ++ show (hook inputs) ++ " in " ++ root inputs ++ ".")) ;;
    try_catch
      (await (Exec (show (hook inputs)) (root inputs)) ;; ret tt)
      (fun err =>
         notify (ConsoleError (stderr err)) ;;
         throw (Error (hook_failure (show (hook inputs)) err)))) ;;
  notify (Status "Uploading") ;;
  let dirToUploadPath := show (js_or (src inputs) (Some (root inputs))) in
  notify (Debug ("Uploading website files from " ++ dirToUploadPath
                   ++ " to bucket " ++ show bucketOutputs_name ++ ".")) ;;
  await (Upload "websiteBucket" dirToUploadPath) ;;
  let url := website_url bucketOutputs_name (region inputs) in
  set_state (mk_state (Some (bucketName inputs)) (domain inputs)
                      (Some (region inputs)) (Some url)) ;;
  save ;;
  notify (Debug ("Website deployed successfully to URL: " ++ url ++ ".")) ;;
  notify (Output "url" url) ;;
  ret (mk_outputs url
         (match env inputs with Some kvs => kvs | None => [] end)
         (if truthy (domain inputs)
          then Some ("http://" ++ show (domain inputs)) else None)).

(** [async remove()] *)
Definition remove : M unit :=
  notify (Status "Removing") ;;
  notify (Debug "removing website bucket.") ;;
  await (Load "@serverless/aws-s3" "websiteBucket") ;;
  await (Remove "websiteBucket") ;;
  st <- get_state ;;
  when (truthy (st_domain st)) (
    notify (Debug ("Domain was specified. Removing domain " ++ show (st_domain st) ++ ".")) ;;
    let route53 := mk_client (st_region st) (context_credentials_aws h) in
    await (ConfigureDomainForBucket route53 (show (st_domain st))
                                    (st_region st) (Some "DELETE")) ;;
    await (ConfigureDomainForBucket route53 ("www." ++ show (st_domain st))
                                    (st_region st) (Some "DELETE")) ;;
    notify (Debug "Removing redirect bucket.") ;;
    await (Load "@serverless/aws-s3" "redirectBucket") ;;
    await (Remove "redirectBucket") ;;
    ret tt) ;;
  set_state empty_state ;;
  save ;;
  ret tt.

End Component.

(** ** A POSIX host

    Node's [path.resolve] and [path.join] on a POSIX system, and a provider
    on which every call resolves. They give the sample deployments below a
    host to run on; the theorems hold for every host. *)

Module Posix.

Definition is_absolute (p : string) : bool :=
  match p with String "/" _ => true | _ => false end.

(** The segments of a path between its slashes. *)
Fixpoint segments (p : string) : list string :=
  match p with
  | EmptyString => [EmptyString]
  | String c r =>
      if Ascii.eqb c "/" then EmptyString :: segments r
      else match segments r with
           | x :: xs => String c x :: xs
           | [] => [String c EmptyString]
           end
  end.

(** One segment pushed on the normalized path so far (last segment first). *)
Definition push (above_root : bool) (acc : list string) (seg : string) : list string :=
  if String.eqb seg EmptyString || String.eqb seg "." then acc
  else if String.eqb seg ".." then
    match acc with
    | top :: rest => if String.eqb top ".." then seg :: acc else rest
    | [] => if above_root then [seg] else []
    end
  else seg :: acc.

Definition normalize_segments (above_root : bool) (p : string) : list string :=
  rev (fold_left (push above_root) (segments p) []).

Definition resolve (cwd p : string) : string :=
  let full := if is_absolute p then p else cwd ++ "/" ++ p in
  String "/" (String.concat "/" (normalize_segments false full)).

Definition ends_with_slash (p : string) : bool :=
  match rev (segments p) with
  | last :: _ :: _ => String.eqb last EmptyString
  | _ => false
  end.

Definition join (a b : string) : string :=
  let joined :=
    if truthy_str a then (if truthy_str b then a ++ "/" ++ b else a) else b in
  if truthy_str joined then
    let abs := is_absolute joined in
    let body := String.concat "/" (normalize_segments (negb abs) joined) in
    let body := if truthy_str body then body else if abs then body else "." in
    let body := if truthy_str body && ends_with_slash joined then body ++ "/" else body in
    if abs then String "/" body else body
  else ".".

(** Every call resolves; a bucket component resolves to outputs that carry
    the name it was given. *)
Definition provider (_ : list event) (e : event) : outcome :=
  match e with
  | Deploy _ name _ _ => Resolves (Some name)
  | _ => Resolves None
  end.

Definition host (cwd : string) (respond : list event -> event -> outcome) : host :=
  mk_host cwd (resolve cwd) join "dev-website-k3x9" "credentials" respond.

End Posix.

(** ** Classifying the calls of a trace *)

Definition is_notification (e : event) : bool :=
  match e with
  | Status _ | Debug _ | Output _ _ | ConsoleError _ => true
  | _ => false
  end.

Definition is_dns (e : event) : bool :=
  match e with ConfigureDomainForBucket _ _ _ _ => true | _ => false end.

(** Modelled from the spec: [configureDomainForBucket] of [./utils] is not
    among the sources. By section 4.3 it upserts the alias record of the
    domain, and deletes that record when it is given the mode flag. An
    upsert is the call without the fourth argument. *)
Definition is_bind (e : event) : bool :=
  match e with ConfigureDomainForBucket _ _ _ None => true | _ => false end.

(** Modelled from the spec: the same helper with the mode flag ['DELETE']
    deletes the alias record (section 4.3). *)
Definition is_unbind (e : event) : bool :=
  match e with
  | ConfigureDomainForBucket _ _ _ (Some a) => String.eqb a "DELETE"
  | _ => false
  end.

(** The calls of the domain step: the redirect bucket and the upserts. *)
Definition is_domain_step (e : event) : bool :=
  match e with
  | Load _ alias | Deploy alias _ _ _ | Remove alias | Upload alias _ =>
      String.eqb alias "redirectBucket"
  | ConfigureBucketForRedirect _ _ _ => true
  | ConfigureDomainForBucket _ _ _ None => true
  | _ => false
  end.

Definition is_upload (e : event) : bool :=
  match e with Upload _ _ => true | _ => false end.

Definition is_save (e : event) : bool :=
  match e with Save _ => true | _ => false end.

Definition is_write_file (e : event) : bool :=
  match e with WriteFile _ _ => true | _ => false end.

Definition is_exec (e : event) : bool :=
  match e with Exec _ _ => true | _ => false end.

(** The trace cut at its first [Save]: the calls before it, the state it
    saves, the calls after it. *)
Fixpoint split_at_save (t : list event) : option (list event * state * list event) :=
  match t with
  | [] => None
  | Save s :: post => Some ([], s, post)
  | e :: r =>
      match split_at_save r with
      | Some (pre, s, post) => Some (e :: pre, s, post)
      | None => None
      end
  end.

(** [none_after p q t]: in [t], no call satisfying [p] comes after a call
    satisfying [q]. *)
Fixpoint none_after (p q : event -> bool) (t : list event) : bool :=
  match t with
  | [] => true
  | e :: r => (if q e then negb (existsb p r) else true) && none_after p q r
  end.

(** The claim that the old records are deleted before the new ones are
    upserted: no delete comes after an upsert. *)
Definition unbinds_come_first (t : list event) : Prop :=
  none_after is_unbind is_bind t = true.

(** The converse order: no upsert comes after a delete. *)
Definition binds_come_first (t : list event) : Prop :=
  none_after is_bind is_unbind t = true.

(** The awaited calls of a trace. *)
Definition awaited (t : list event) : list event :=
  filter (fun e => negb (is_notification e)) t.

(** The calls that create, fill or configure something. *)
Definition is_provisioning (e : event) : bool :=
  match e with
  | Deploy _ _ _ _ | Upload _ _ | WriteFile _ _ | Exec _ _
  | ConfigureBucketForHosting _ _ | ConfigureBucketForRedirect _ _ _ => true
  | ConfigureDomainForBucket _ _ _ None => true
  | _ => false
  end.

Definition is_output (e : event) : bool :=
  match e with Output _ _ => true | _ => false end.

Definition is_remove (e : event) : bool :=
  match e with Remove _ => true | _ => false end.

(** The trace cut at its last awaited call: the calls before it, the call,
    the notifications after it. *)
Fixpoint split_last_awaited (t : list event)
  : option (list event * event * list event) :=
  match t with
  | [] => None
  | e :: r =>
      match split_last_awaited r with
      | Some (pre, ev, post) => Some (e :: pre, ev, post)
      | None => if is_notification e then None else Some ([], e, r)
      end
  end.

(** Every awaited call of [t], made after the calls [pre], resolves on [h]. *)
Fixpoint all_resolve (h : host) (pre t : list event) : Prop :=
  match t with
  | [] => True
  | e :: r =>
      (is_notification e = true \/ exists name, respond h pre e = Resolves name)
      /\ all_resolve h (pre ++ [e]) r
  end.

(** The record a DNS call is about: its domain and its region argument. *)
Definition dns_record (e : event) : option (string * jsval) :=
  match e with
  | ConfigureDomainForBucket _ dom rgn _ => Some (dom, rgn)
  | _ => None
  end.

(** ** Sample deployments *)

Definition site : host := Posix.host "/srv/site" Posix.provider.

(** A provider on which a shell command fails and everything else resolves. *)
Definition failing_shell (t : list event) (e : event) : outcome :=
  match e with
  | Exec _ _ => Rejects (mk_error "Command failed" (Some "sh: 1: gulp: not found"))
  | _ => Posix.provider t e
  end.

Definition broken_site : host := Posix.host "/srv/site" failing_shell.

Definition state_a : state :=
  mk_state (Some "a.com") (Some "a.com") (Some "eu-west-1")
           (Some "http://a.com.s3-website-eu-west-1.amazonaws.com").

(** The same site with its domain kept. *)
Definition inputs_a : inputs :=
  mk_inputs None (Some "us-west-2") (Some "a.com") None.

Definition inputs_b : inputs :=
  mk_inputs (Some (mk_code None (Some "dist") (Some "npm run build")))
            (Some "us-west-2") (Some "b.com")
            (Some [("API", JStr "https://x")]).

(** ** Symbolic execution of the two operations *)

Ltac unfold_run :=
  cbv beta iota zeta delta
    [default remove bind ret throw try_catch when notify await save
     get_state set_state record init app trace this_state store].

(** One answer of the host, or one guard of the source, at a time. A fact
    in the context about the call or the guard decides it. *)
Ltac decided :=
  match goal with
  | H : forall t, respond ?h t ?e = _ |- context [respond ?h ?t0 ?e] =>
      rewrite (H t0)
  | H : ?b = _ |- context [if ?b then _ else _] => rewrite H
  end.

Ltac branch :=
  match goal with
  | |- context [if ?b then _ else _] => destruct b eqn:?
  end.

Ltac answer :=
  first [ decided
        | match goal with
          | |- context [respond ?h ?t ?e] => destruct (respond h t e)
          end
        | branch ].

(** The same, keeping the equation of each answer. *)
Ltac answer_eq :=
  first [ decided
        | match goal with
          | |- context [respond ?h ?t ?e] => destruct (respond h t e) eqn:?
          end
        | branch ].

Ltac start_default :=
  unfold_run;
  match goal with
  | |- context [normalize ?h ?st ?raw] =>
      let i := fresh "i" in
      set (i := normalize h st raw) in *
  end.

Ltac answers := repeat (answer; unfold_run).

Ltac answers_eq := repeat (answer_eq; unfold_run).

Ltac run_default := start_default; answers.

Ltac run_remove := unfold_run; answers.

Ltac finish := cbn; repeat split; intros; try discriminate; try congruence; auto.

Ltac prefix_upto :=
  first [ solve [exists 0; finish] | solve [exists 1; finish]
        | solve [exists 2; finish] | solve [exists 3; finish]
        | solve [exists 4; finish] | solve [exists 5; finish]
        | solve [exists 6; finish] | solve [exists 7; finish] ].

(** ** Helper facts *)

Lemma js_strict_neq_true (a b : jsval) : js_strict_neq a b = true <-> a <> b.
Proof.
  destruct a as [x|], b as [y|]; cbn; split; intro H; try congruence; auto.
  - apply negb_true_iff, String.eqb_neq in H. congruence.
  - apply negb_true_iff, String.eqb_neq. congruence.
Qed.

Lemma js_strict_neq_false (a b : jsval) : js_strict_neq a b = false <-> a = b.
Proof.
  destruct a as [x|], b as [y|]; cbn; split; intro H; try congruence; auto.
  - apply negb_false_iff, String.eqb_eq in H. congruence.
  - apply negb_false_iff, String.eqb_eq. congruence.
Qed.

(** ** Persisted state *)

(** C4: the store is written by one call at most, the [Save] that follows
    the upload and that no awaited call follows; a deploy that throws leaves
    the store as it was before the run, and a deploy that returns has saved
    [this.state]. *)
Theorem default_saves_once_at_the_end (h : host) (arg : option inputs) (st : state) :
  let '(c, r) := default h arg (init st) in
  (forall e, r = Throw e -> store c = st)
  /\ (forall o, r = Ok o -> store c = this_state c /\ In (Save (store c)) (trace c))
  /\ length (filter is_save (trace c)) <= 1
  /\ match split_at_save (trace c) with
     | Some (pre, s, post) =>
         existsb is_upload pre = true /\ forallb is_notification post = true
     | None => store c = st
     end.
Proof.
  run_default; cbn; repeat split; intros; try discriminate; auto;
    try (repeat (first [left; reflexivity | right])); try lia.
Qed.

(** ** DNS records *)

(** C1, as stated, fails: from a.com to b.com on a host where every call
    resolves, the deletes of a.com come after the upserts of b.com. *)
Lemma unbinds_do_not_come_first :
  ~ unbinds_come_first (trace (fst (default site (Some inputs_b) (init state_a)))).
Proof. unfold unbinds_come_first. vm_compute. discriminate. Qed.

(** C1, amended: when the persisted domain [old] differs from the requested
    domain [new], the DNS calls of a deploy are, in this order, the upserts
    of [new] and [www.new] with the new region, then the deletes of [old]
    and [www.old] with the persisted region; a deploy that fails makes a
    prefix of them. No upsert comes after a delete. *)
Theorem drift_unbinds_after_binds
    (h : host) (arg : option inputs) (st : state) (old new : string) :
  st_domain st = Some old -> truthy_str old = true ->
  in_domain (given arg) = Some new -> truthy_str new = true ->
  old <> new ->
  let i := normalize h st (given arg) in
  let route53 := mk_client (Some (region i)) (context_credentials_aws h) in
  let dns :=
    [ConfigureDomainForBucket route53 new (Some (region i)) None;
     ConfigureDomainForBucket route53 ("www." ++ new) (Some (region i)) None;
     ConfigureDomainForBucket route53 old (st_region st) (Some "DELETE");
     ConfigureDomainForBucket route53 ("www." ++ old) (st_region st) (Some "DELETE")] in
  let '(c, r) := default h arg (init st) in
  binds_come_first (trace c)
  /\ (exists n, filter is_dns (trace c) = firstn n dns)
  /\ (forall o, r = Ok o -> filter is_dns (trace c) = dns).
Proof.
  intros Hold Told Hnew Tnew Hne i route53 dns. subst dns route53 i.
  start_default.
  assert (Hd : domain i = Some new) by exact Hnew.
  assert (Hg : truthy (st_domain st) && js_strict_neq (st_domain st) (domain i) = true).
  { rewrite Hd, Hold. cbn. rewrite Told. cbn.
    apply negb_true_iff, String.eqb_neq. exact Hne. }
  assert (Ht : truthy (domain i) = true) by (rewrite Hd; exact Tnew).
  answers; rewrite ?Hd, ?Hold;
    (split; [reflexivity | split; [prefix_upto | finish]]).
Qed.

(** C2: when the persisted state records a domain that differs from the
    requested one (which may be absent), the deletes of a deploy are the two
    calls for the persisted domain and its www variant, with the region of
    the persisted state; a deploy that fails before the end makes a prefix of
    them. When no domain is persisted, or the same one, no delete is made. *)
Theorem drift_check_unbinds_old_domain
    (h : host) (arg : option inputs) (st : state) :
  let i := normalize h st (given arg) in
  let route53 := mk_client (Some (region i)) (context_credentials_aws h) in
  let '(c, r) := default h arg (init st) in
  (forall old,
     st_domain st = Some old -> truthy_str old = true ->
     st_domain st <> in_domain (given arg) ->
     let deletes :=
       [ConfigureDomainForBucket route53 old (st_region st) (Some "DELETE");
        ConfigureDomainForBucket route53 ("www." ++ old) (st_region st)
                                 (Some "DELETE")] in
     (exists n, filter is_unbind (trace c) = firstn n deletes)
     /\ (forall o, r = Ok o -> filter is_unbind (trace c) = deletes))
  /\ (truthy (st_domain st) = false \/ st_domain st = in_domain (given arg) ->
      filter is_unbind (trace c) = []).
Proof.
  intros i route53. subst route53 i.
  start_default.
  assert (Hd : in_domain (given arg) = domain i) by reflexivity.
  rewrite Hd. clear Hd.
  destruct (truthy (st_domain st) && js_strict_neq (st_domain st) (domain i))
    eqn:Hg.
  - apply andb_true_iff in Hg as Hg'. destruct Hg' as [Ht Hn].
    apply js_strict_neq_true in Hn.
    answers; (split;
      [ intros old Hold Told Hne; rewrite ?Hold; split; [prefix_upto | finish]
      | intros [Hf | He]; [congruence | contradiction] ]).
  - apply andb_false_iff in Hg as Hg'.
    answers; (split;
      [ intros old Hold Told Hne; exfalso; destruct Hg' as [Hf | He];
        [ rewrite Hold in Hf; cbn in Hf; congruence
        | apply js_strict_neq_false in He; contradiction ]
      | intros _; reflexivity ]).
Qed.

(** C7: when a domain [d] is requested, the deploy loads and provisions the
    redirect bucket [www.d], configures it to redirect to [d], and upserts the
    alias records of [d] and of [www.d], in this order (a deploy that fails
    makes a prefix of these calls); when no domain is requested, none of
    these calls is made. *)
Theorem domain_step_calls (h : host) (arg : option inputs) (st : state) :
  let i := normalize h st (given arg) in
  let s3 := mk_client (Some (region i)) (context_credentials_aws h) in
  let route53 := mk_client (Some (region i)) (context_credentials_aws h) in
  let '(c, r) := default h arg (init st) in
  (forall d,
     in_domain (given arg) = Some d -> truthy_str d = true ->
     let calls :=
       [Load "@serverless/aws-s3" "redirectBucket";
        Deploy "redirectBucket" ("www." ++ d) false (region i);
        ConfigureBucketForRedirect s3 ("www." ++ d) d;
        ConfigureDomainForBucket route53 d (Some (region i)) None;
        ConfigureDomainForBucket route53 ("www." ++ d) (Some (region i)) None] in
     (exists n, filter is_domain_step (trace c) = firstn n calls)
     /\ (forall o, r = Ok o -> filter is_domain_step (trace c) = calls))
  /\ (truthy (in_domain (given arg)) = false ->
      filter is_domain_step (trace c) = []).
Proof.
  intros i s3 route53. subst route53 s3 i.
  start_default.
  assert (Hd : in_domain (given arg) = domain i) by reflexivity.
  rewrite Hd. clear Hd.
  destruct (truthy (domain i)) eqn:Ht.
  - answers; (split;
      [ intros d Hd Td; rewrite ?Hd; split; [prefix_upto | finish]
      | intros; discriminate ]).
  - answers; (split;
      [ intros d Hd Td; rewrite Hd in Ht; cbn in Ht; congruence
      | intros _; reflexivity ]).
Qed.

(** ** Removal *)

(** C6: [remove] on a state with a domain removes the primary bucket, deletes
    the alias records of the persisted domain and of its www variant with the
    persisted region, removes the redirect bucket and then saves the empty
    state; on a state without a domain it removes the primary bucket and
    saves the empty state, and makes no other awaited call. A removal that
    fails makes a prefix of these calls and leaves the store as it was. *)
Theorem remove_calls (h : host) (st : state) :
  let route53 := mk_client (st_region st) (context_credentials_aws h) in
  let '(c, r) := remove h (init st) in
  (forall d,
     st_domain st = Some d -> truthy_str d = true ->
     let calls :=
       [Load "@serverless/aws-s3" "websiteBucket";
        Remove "websiteBucket";
        ConfigureDomainForBucket route53 d (st_region st) (Some "DELETE");
        ConfigureDomainForBucket route53 ("www." ++ d) (st_region st)
                                 (Some "DELETE");
        Load "@serverless/aws-s3" "redirectBucket";
        Remove "redirectBucket";
        Save empty_state] in
     (exists n, awaited (trace c) = firstn n calls)
     /\ (r = Ok tt -> awaited (trace c) = calls /\ store c = empty_state))
  /\ (truthy (st_domain st) = false ->
      let calls :=
        [Load "@serverless/aws-s3" "websiteBucket";
         Remove "websiteBucket";
         Save empty_state] in
      (exists n, awaited (trace c) = firstn n calls)
      /\ (r = Ok tt -> awaited (trace c) = calls /\ store c = empty_state))
  /\ (forall e, r = Throw e -> store c = st).
Proof.
  intros route53. subst route53.
  unfold_run.
  destruct (truthy (st_domain st)) eqn:Ht.
  - answers; (split; [|split];
      [ intros d Hd Td; rewrite ?Hd; split; [prefix_upto | finish]
      | intros; discriminate
      | finish ]).
  - answers; (split; [|split];
      [ intros d Hd Td; rewrite Hd in Ht; cbn in Ht; congruence
      | intros _; split; [prefix_upto | finish]
      | finish ]).
Qed.

(** A host on which every call resolves lets the removal return. *)
Lemma remove_returns (h : host) (st : state) :
  (forall t e, exists name, respond h t e = Resolves name) ->
  snd (remove h (init st)) = Ok tt.
Proof.
  intros Hres.
  unfold_run; answers_eq;
    try match goal with
        | Hr : respond _ ?t ?e = Rejects _ |- _ =>
            destruct (Hres t e) as [? Hx]; rewrite Hx in Hr; discriminate
        end;
    reflexivity.
Qed.

(** ** Build hook *)

(** C5: when a hook [cmd] is supplied and the shell rejects it with [err],
    no deploy uploads anything, the store keeps the state it had, and the
    deploy throws; once the hook has been run, the thrown error is a new
    [Error] whose message quotes [cmd] and the [stderr] of [err]. *)
Theorem failed_hook_aborts_before_upload
    (h : host) (arg : option inputs) (st : state) (cmd : string) (err : js_error) :
  let i := normalize h st (given arg) in
  hook i = Some cmd -> truthy_str cmd = true ->
  (forall t, respond h t (Exec cmd (root i)) = Rejects err) ->
  let '(c, r) := default h arg (init st) in
  existsb is_upload (trace c) = false
  /\ store c = st
  /\ (exists e, r = Throw e)
  /\ (existsb is_exec (trace c) = true ->
      r = Throw (Error (hook_failure cmd err))
      /\ message (Error (hook_failure cmd err)) =
           "Failed building website via " ++ String dq EmptyString ++ cmd
             ++ String dq EmptyString ++ " due to the following error: "
             ++ String dq EmptyString ++ show (stderr err)
             ++ String dq EmptyString).
Proof.
  intros i Hh Tc Hrej. subst i.
  start_default.
  assert (Ht : truthy (hook i) = true) by (rewrite Hh; exact Tc).
  assert (Hrej' : forall t, respond h t (Exec (show (hook i)) (root i)) = Rejects err)
    by (rewrite Hh; exact Hrej).
  clear Hrej.
  answers; rewrite ?Hh; cbn; repeat split; intros; try discriminate; eauto.
Qed.

(** ** Outputs *)

(** A host on which every call resolves lets the deploy return. *)
Lemma default_returns (h : host) (arg : option inputs) (st : state) :
  (forall t e, exists name, respond h t e = Resolves name) ->
  exists o, snd (default h arg (init st)) = Ok o.
Proof.
  intros Hres.
  start_default; answers_eq;
    try match goal with
        | Hr : respond _ ?t ?e = Rejects _ |- _ =>
            destruct (Hres t e) as [? Hx]; rewrite Hx in Hr; discriminate
        end;
    cbn; eauto.
Qed.

(** C9: a deploy that returns has stored the resolved bucket name, the
    requested domain, the resolved region and the website endpoint built from
    the name the bucket component returned and the region; it returns that
    url, the entries of [env], and the domain as an http URL exactly when a
    domain was requested. *)
Theorem successful_deploy_state_and_outputs
    (h : host) (arg : option inputs) (st : state) (o : outputs) :
  let i := normalize h st (given arg) in
  snd (default h arg (init st)) = Ok o ->
  exists t name,
    respond h t (Deploy "websiteBucket" (bucketName i) false (region i))
      = Resolves name
    /\ let url := "http://" ++ show name ++ ".s3-website-" ++ region i
                    ++ ".amazonaws.com" in
       store (fst (default h arg (init st)))
         = mk_state (Some (bucketName i)) (in_domain (given arg))
                    (Some (region i)) (Some url)
       /\ out_url o = url
       /\ out_env o = match in_env (given arg) with Some kvs => kvs | None => [] end
       /\ (forall d, in_domain (given arg) = Some d -> truthy_str d = true ->
           out_domain o = Some ("http://" ++ d))
       /\ (truthy (in_domain (given arg)) = false -> out_domain o = None)
       /\ (name = Some (bucketName i) ->
           out_url o = "http://" ++ bucketName i ++ ".s3-website-" ++ region i
                         ++ ".amazonaws.com").
Proof.
  intros i. subst i.
  assert (Hd : in_domain (given arg) = domain (normalize h st (given arg)))
    by reflexivity.
  assert (He : in_env (given arg) = env (normalize h st (given arg)))
    by reflexivity.
  rewrite Hd, He. clear Hd He.
  start_default; answers_eq; cbn [fst snd]; intros Hr; try discriminate;
    inversion Hr; subst o;
    (eexists; eexists; split; [eassumption|]);
    cbn; unfold website_url; repeat split;
    try (intros d Hd Td;
         match goal with
         | Hb : truthy (domain _) = _ |- _ =>
             cbn in Hb; rewrite Hd in Hb; cbn in Hb
         end;
         rewrite ?Hd; cbn; congruence);
    try congruence; try (intros ->; reflexivity).
Qed.

(** ** Environment bundle *)





(** After normalization [code.root] is the working directory or a resolved
    path. *)
Lemma root_cases (h : host) (st : state) (raw : inputs) :
  root (normalize h st raw) = process_cwd h
  \/ exists p, root (normalize h st raw) = path_resolve h p.
Proof.
  unfold normalize. cbn [root].
  destruct (truthy _); [right; eexists; reflexivity | left; reflexivity].
Qed.

Lemma root_truthy (h : host) (st : state) (raw : inputs) :
  process_cwd h <> EmptyString ->
  (forall p, path_resolve h p <> EmptyString) ->
  truthy_str (root (normalize h st raw)) = true.
Proof.
  intros Hcwd Hres.
  destruct (root_cases h st raw) as [E | [p E]]; rewrite E.
  - destruct (process_cwd h); [contradiction | reflexivity].
  - specialize (Hres p). destruct (path_resolve h p); [contradiction | reflexivity].
Qed.



(** C10: on a host whose working directory and resolved paths are not empty,
    the normalized [code.root] is a non-empty string, so the guard of the
    bundle step has the truth value of "[env] has a key"; the case of an
    [env] with keys and a falsy [code.root] does not arise, and a file is
    written only when [env] has a key, and in every deploy that returns when
    it has one. *)
Theorem code_root_never_falsy (h : host) (arg : option inputs) (st : state) :
  process_cwd h <> EmptyString ->
  (forall p, path_resolve h p <> EmptyString) ->
  let i := normalize h st (given arg) in
  let '(c, r) := default h arg (init st) in
  root i <> EmptyString
  /\ (root i = process_cwd h \/ exists p, root i = path_resolve h p)
  /\ has_keys (env i) && truthy_str (root i) = has_keys (in_env (given arg))
  /\ ~ (has_keys (in_env (given arg)) = true /\ truthy_str (root i) = false)
  /\ (existsb is_write_file (trace c) = true ->
      has_keys (in_env (given arg)) = true)
  /\ (forall o, r = Ok o ->
      existsb is_write_file (trace c) = has_keys (in_env (given arg))).
Proof.
  intros Hcwd Hres i.
  assert (Hroot : truthy_str (root i) = true) by (apply root_truthy; assumption).
  assert (Hcases := root_cases h st (given arg)).
  fold i in Hcases. subst i.
  start_default.
  assert (He : in_env (given arg) = env i) by reflexivity.
  rewrite He. clear He.
  assert (Hne : root i <> EmptyString)
    by (intros E; rewrite E in Hroot; discriminate).
  assert (Hg : has_keys (env i) && truthy_str (root i) = has_keys (env i))
    by (rewrite Hroot; apply andb_true_r).
  assert (Hno : ~ (has_keys (env i) = true /\ truthy_str (root i) = false))
    by (intros [_ F]; congruence).
  destruct (has_keys (env i)) eqn:Hk; rewrite Hroot in *; cbn [andb] in *;
    answers; cbn; repeat split; intros; try discriminate; try congruence; auto.
Qed.

(** ** Input normalization *)

(** C3: the bucket name is the persisted one when there is one, else the
    requested domain when there is one, else the identifier the framework
    generates; a persisted name x is kept whatever the inputs are. Without a
    persisted name and without a domain the name is the generated identifier
    (non-empty when the framework's identifier is) and an absent region
    becomes us-east-1. *)
Theorem bucketName_resolution (h : host) (st : state) (arg : option inputs) :
  let i := normalize h st (given arg) in
  (forall b, st_bucketName st = Some b -> truthy_str b = true -> bucketName i = b)
  /\ (st_bucketName st = Some "x" -> bucketName i = "x")
  /\ (forall d, truthy (st_bucketName st) = false ->
      in_domain (given arg) = Some d -> truthy_str d = true -> bucketName i = d)
  /\ (truthy (st_bucketName st) = false -> truthy (in_domain (given arg)) = false ->
      bucketName i = context_resourceId h
      /\ (context_resourceId h <> EmptyString -> bucketName i <> EmptyString)
      /\ (truthy (in_region (given arg)) = false -> region i = "us-east-1")).
Proof.
  intros i. subst i. unfold normalize, js_or. cbn [bucketName region].
  split; [|split; [|split]].
  - intros b Hb Tb. rewrite Hb. cbn. now rewrite Tb.
  - intros Hb. now rewrite Hb.
  - intros d Hs Hd Td. rewrite Hs, Hd. cbn. now rewrite Td.
  - intros Hs Hd. rewrite Hs, Hd. cbn [show]. split; [|split].
    + reflexivity.
    + intros Hid. exact Hid.
    + intros Hr. now rewrite Hr.
Qed.

(** ** Order of the steps and propagation of errors *)

Ltac prefix_len :=
  cbn;
  match goal with
  | |- exists n, ?l = firstn n _ => exists (length l); reflexivity
  end.

Ltac returned_name :=
  match goal with
  | H : respond _ _ (Deploy "websiteBucket" _ _ _) = Resolves ?n |- _ => exists n
  | _ => exists None
  end.

(** X1: the awaited calls of a deploy follow one fixed order: the primary
    bucket is loaded, provisioned (never accelerated) and configured for
    hosting; then the calls of the domain step, the deletes of the drift
    check, the environment bundle, the build hook, the upload, the save.
    A deploy that fails makes a prefix of this sequence. *)
Theorem deploy_call_order (h : host) (arg : option inputs) (st : state) :
  let i := normalize h st (given arg) in
  let aws := mk_client (Some (region i)) (context_credentials_aws h) in
  let www := ("www." ++ show (domain i))%string in
  let '(c, r) := default h arg (init st) in
  exists name,
    let plan :=
     ([Load "@serverless/aws-s3" "websiteBucket";
       Deploy "websiteBucket" (bucketName i) false (region i);
       ConfigureBucketForHosting aws (bucketName i)]
      ++ (if truthy (domain i)
          then [Load "@serverless/aws-s3" "redirectBucket";
                Deploy "redirectBucket" www false (region i);
                ConfigureBucketForRedirect aws www (show (domain i));
                ConfigureDomainForBucket aws (show (domain i)) (Some (region i)) None;
                ConfigureDomainForBucket aws www (Some (region i)) None]
          else [])
      ++ (if truthy (st_domain st) && js_strict_neq (st_domain st) (domain i)
          then [ConfigureDomainForBucket aws (show (st_domain st))
                                         (st_region st) (Some "DELETE");
                ConfigureDomainForBucket aws ("www." ++ show (st_domain st))%string
                                         (st_region st) (Some "DELETE")]
          else [])
      ++ (if has_keys (env i) && truthy_str (root i)
          then [WriteFile (path_join h (root i) "env.js")
                          (env_script (match env i with
                                       | Some kvs => kvs
                                       | None => []
                                       end))]
          else [])
      ++ (if truthy (hook i) then [Exec (show (hook i)) (root i)] else [])
      ++ [Upload "websiteBucket" (show (js_or (src i) (Some (root i))));
          Save (mk_state (Some (bucketName i)) (domain i) (Some (region i))
                         (Some (website_url name (region i))))])%list in
    (exists n, awaited (trace c) = firstn n plan)
    /\ (forall o, r = Ok o -> awaited (trace c) = plan).
Proof.
  intros i aws www. subst www aws i.
  start_default. answers_eq; returned_name;
    (split; [prefix_len | finish]).
Qed.

(** X2: a deploy stops at the first call that rejects. When it returns,
    every awaited call of its trace has resolved. When it throws, all
    awaited calls but the last have resolved, the last one has rejected, and
    nothing follows it; the thrown value is the rejection itself, except for
    the build hook, whose rejection is written to the console and replaced
    by the error that quotes the command. *)
Theorem deploy_stops_at_first_rejection
    (h : host) (arg : option inputs) (st : state) :
  let '(c, r) := default h arg (init st) in
  match r with
  | Ok _ => all_resolve h [] (trace c)
  | Throw e =>
      match split_last_awaited (trace c) with
      | Some (pre, ev, post) =>
          all_resolve h [] pre
          /\ exists e', respond h pre ev = Rejects e'
             /\ match ev with
                | Exec cmd _ =>
                    e = Error (hook_failure cmd e')
                    /\ post = [ConsoleError (stderr e')]
                | _ => e = e' /\ post = []
                end
      | None => False
      end
  end.
Proof.
  start_default. answers_eq;
    cbn [all_resolve split_last_awaited is_notification app];
    repeat match goal with
           | |- _ /\ _ => split
           | |- True => exact I
           | |- _ \/ _ => first [ left; reflexivity | right; eexists; eassumption ]
           | |- exists e', respond _ _ _ = Rejects e' /\ _ =>
               eexists; split; [eassumption|]
           | |- _ = _ => reflexivity
           end.
Qed.

(** X3: a removal stops at the first call that rejects and throws that
    rejection unchanged; when it returns, every awaited call has resolved. *)
Theorem remove_stops_at_first_rejection (h : host) (st : state) :
  let '(c, r) := remove h (init st) in
  match r with
  | Ok _ => all_resolve h [] (trace c)
  | Throw e =>
      match split_last_awaited (trace c) with
      | Some (pre, ev, post) =>
          all_resolve h [] pre
          /\ respond h pre ev = Rejects e
          /\ post = []
          /\ store c = st
      | None => False
      end
  end.
Proof.
  unfold_run. answers_eq;
    cbn [all_resolve split_last_awaited is_notification app];
    repeat match goal with
           | |- _ /\ _ => split
           | |- True => exact I
           | |- _ \/ _ => first [ left; reflexivity | right; eexists; eassumption ]
           | |- respond _ _ _ = Rejects _ => eassumption
           | |- _ = _ => reflexivity
           end.
Qed.

(** ** Uploads *)

Lemma upload_calls (h : host) (arg : option inputs) (st : state) :
  let i := normalize h st (given arg) in
  let up := [Upload "websiteBucket" (show (js_or (src i) (Some (root i))))] in
  (exists n, filter is_upload (trace (fst (default h arg (init st)))) = firstn n up)
  /\ (forall o, snd (default h arg (init st)) = Ok o ->
      filter is_upload (trace (fst (default h arg (init st)))) = up).
Proof.
  intros i up. subst up i.
  start_default. answers; cbn [fst snd]; (split; [prefix_upto | finish]).
Qed.

(** X4: a deploy uploads once, through the primary bucket, and only as its
    last step before saving. The directory is [code.root] joined with
    [code.src] when a non-empty [code.src] is given, and [code.root] itself
    otherwise; [code.root] is the resolved [code.root] of the inputs when
    one is given and the working directory otherwise. *)
Theorem upload_directory (h : host) (arg : option inputs) (st : state) :
  let i := normalize h st (given arg) in
  let '(c, r) := default h arg (init st) in
  exists dir,
    (exists n, filter is_upload (trace c) = firstn n [Upload "websiteBucket" dir])
    /\ (forall o, r = Ok o -> filter is_upload (trace c) = [Upload "websiteBucket" dir])
    /\ (in_code (given arg) = None -> dir = process_cwd h)
    /\ (forall c0, in_code (given arg) = Some c0 ->
        truthy (code_src c0) = false -> dir = root i)
    /\ (forall c0 s, in_code (given arg) = Some c0 ->
        code_src c0 = Some s -> truthy_str s = true ->
        path_join h (root i) s <> EmptyString ->
        dir = path_join h (root i) s)
    /\ (forall c0 p, in_code (given arg) = Some c0 ->
        code_root c0 = Some p -> truthy_str p = true ->
        root i = path_resolve h p)
    /\ (forall c0, in_code (given arg) = Some c0 ->
        truthy (code_root c0) = false -> root i = process_cwd h).
Proof.
  intros i.
  destruct (upload_calls h arg st) as [Hpre Hall]. fold i in Hpre, Hall.
  destruct (default h arg (init st)) as [c r]. cbn [fst snd] in Hpre, Hall.
  exists (show (js_or (src i) (Some (root i)))).
  split; [exact Hpre | split; [exact Hall |]].
  subst i. unfold normalize, js_or. cbn [src root].
  split; [|split; [|split; [|split]]].
  - intros Hc. rewrite Hc. reflexivity.
  - intros c0 Hc Hs. rewrite Hc, Hs, Hs. reflexivity.
  - intros c0 s Hc Hs Ts Hj. rewrite Hc in Hj |- *. rewrite Hs.
    cbn [truthy show]. rewrite Ts. cbn [truthy show].
    match goal with
    | |- context [truthy_str ?x] => destruct x eqn:E
    end; [contradiction | reflexivity].
  - intros c0 p Hc Hp Tp. rewrite Hc, Hp. cbn. rewrite Tp. reflexivity.
  - intros c0 Hc Hp. rewrite Hc, Hp. reflexivity.
Qed.

(** ** Deploying again, and removing what was deployed *)

Lemma js_strict_neq_refl (a : jsval) : js_strict_neq a a = false.
Proof. apply js_strict_neq_false. reflexivity. Qed.

Lemma bucketName_truthy (h : host) (st : state) (raw : inputs) :
  context_resourceId h <> EmptyString ->
  truthy_str (bucketName (normalize h st raw)) = true.
Proof.
  intros Hid. unfold normalize, js_or. cbn [bucketName].
  destruct (truthy (st_bucketName st)) eqn:Hs.
  - destruct (st_bucketName st); [exact Hs | discriminate].
  - destruct (truthy (in_domain raw)) eqn:Hd.
    + destruct (in_domain raw); [exact Hd | discriminate].
    + cbn. destruct (context_resourceId h); [contradiction | reflexivity].
Qed.

(** What a deploy that returns has stored and upserted. *)
Lemma default_success_summary
    (h : host) (arg : option inputs) (st : state) (o : outputs) :
  let i := normalize h st (given arg) in
  let route53 := mk_client (Some (region i)) (context_credentials_aws h) in
  snd (default h arg (init st)) = Ok o ->
  (exists name,
     store (fst (default h arg (init st)))
       = mk_state (Some (bucketName i)) (domain i) (Some (region i))
                  (Some (website_url name (region i))))
  /\ filter is_bind (trace (fst (default h arg (init st))))
     = if truthy (domain i)
       then [ConfigureDomainForBucket route53 (show (domain i)) (Some (region i)) None;
             ConfigureDomainForBucket route53 ("www." ++ show (domain i))
                                      (Some (region i)) None]
       else [].
Proof.
  intros i route53. subst route53 i.
  start_default. answers; cbn [fst snd]; intros Hr; try discriminate;
    (split; [eexists; reflexivity | reflexivity]).
Qed.

(** What a removal that returns has deleted. *)
Lemma remove_success_summary (h : host) (st : state) :
  let route53 := mk_client (st_region st) (context_credentials_aws h) in
  snd (remove h (init st)) = Ok tt ->
  store (fst (remove h (init st))) = empty_state
  /\ filter is_dns (trace (fst (remove h (init st))))
     = filter is_unbind (trace (fst (remove h (init st))))
  /\ filter is_unbind (trace (fst (remove h (init st))))
     = if truthy (st_domain st)
       then [ConfigureDomainForBucket route53 (show (st_domain st))
                                      (st_region st) (Some "DELETE");
             ConfigureDomainForBucket route53 ("www." ++ show (st_domain st))
                                      (st_region st) (Some "DELETE")]
       else [].
Proof.
  intros route53. subst route53.
  unfold_run. answers; cbn [fst snd]; intros Hr; try discriminate;
    (split; [reflexivity | split; reflexivity]).
Qed.

(** Without a difference between the persisted and the requested domain a
    deploy deletes nothing. *)
Lemma no_drift_no_unbind (h : host) (arg : option inputs) (st : state) :
  js_strict_neq (st_domain st) (in_domain (given arg)) = false ->
  filter is_unbind (trace (fst (default h arg (init st)))) = [].
Proof.
  intros Hsame.
  start_default.
  assert (Hg : truthy (st_domain st) && js_strict_neq (st_domain st) (domain i)
               = false) by (apply andb_false_iff; right; exact Hsame).
  answers; reflexivity.
Qed.

(** X5: the bucket identity is stable. After a deploy that returned, on a
    framework whose generated identifiers are not empty, every later
    normalization, on any host and for any inputs, resolves to the bucket
    name of that deploy; the same inputs resolve to the same configuration,
    and deploying them again deletes no DNS record. *)
Theorem redeploy_keeps_configuration
    (h : host) (arg : option inputs) (st : state) (o : outputs) :
  context_resourceId h <> EmptyString ->
  snd (default h arg (init st)) = Ok o ->
  let st' := store (fst (default h arg (init st))) in
  (forall h' arg',
     bucketName (normalize h' st' (given arg'))
       = bucketName (normalize h st (given arg)))
  /\ normalize h st' (given arg) = normalize h st (given arg)
  /\ (forall h', filter is_unbind (trace (fst (default h' arg (init st')))) = []).
Proof.
  intros Hid Hok st'.
  destruct (default_success_summary h arg st o Hok) as [[name Hst] _].
  fold st' in Hst.
  pose proof (bucketName_truthy h st (given arg) Hid) as Hb.
  assert (Hname : forall h' raw,
             bucketName (normalize h' st' raw)
               = bucketName (normalize h st (given arg))).
  { intros h' raw. rewrite Hst. unfold normalize at 1, js_or.
    cbn [bucketName st_bucketName truthy]. rewrite Hb. reflexivity. }
  split; [intros h' arg'; apply Hname | split].
  - specialize (Hname h (given arg)).
    unfold normalize in *. cbn [bucketName] in Hname. rewrite Hname.
    reflexivity.
  - intros h'. apply no_drift_no_unbind. rewrite Hst. cbn [st_domain].
    apply js_strict_neq_refl.
Qed.

(** X6: a removal that returns, run on the state a deploy has saved, deletes
    exactly the alias records that deploy upserted, domain by domain with
    the same region, makes no other DNS call, and leaves the store empty. *)
Theorem remove_undoes_binds
    (h h' : host) (arg : option inputs) (st : state) (o : outputs) :
  snd (default h arg (init st)) = Ok o ->
  let st' := store (fst (default h arg (init st))) in
  snd (remove h' (init st')) = Ok tt ->
  map dns_record (filter is_dns (trace (fst (remove h' (init st')))))
    = map dns_record (filter is_bind (trace (fst (default h arg (init st)))))
  /\ forallb is_unbind (filter is_dns (trace (fst (remove h' (init st'))))) = true
  /\ store (fst (remove h' (init st'))) = empty_state.
Proof.
  intros Hok st' Hrm.
  destruct (default_success_summary h arg st o Hok) as [[name Hst] Hbinds].
  fold st' in Hst.
  destruct (remove_success_summary h' st' Hrm) as [Hempty [Hdns Hunbinds]].
  split; [|split; [|exact Hempty]].
  - rewrite Hdns, Hunbinds, Hbinds, Hst. cbn [st_domain st_region].
    destruct (truthy (domain (normalize h st (given arg)))); reflexivity.
  - rewrite Hdns, Hunbinds.
    destruct (truthy (st_domain st')); reflexivity.
Qed.

(** X7: a deploy never removes a bucket, whichever calls fail and also when
    the domain changed or was dropped; a removal never provisions, uploads,
    writes a file, runs a command or upserts a record. *)
Theorem operations_keep_to_their_side (h : host) (arg : option inputs) (st : state) :
  existsb is_remove (trace (fst (default h arg (init st)))) = false
  /\ existsb is_provisioning (trace (fst (remove h (init st)))) = false.
Proof.
  split.
  - start_default. answers; reflexivity.
  - unfold_run. answers; reflexivity.
Qed.

(** X8: the url is handed to the framework's output exactly when the deploy
    returns, once, and it is the url of the returned outputs and of the
    state just saved; a deploy that throws outputs nothing. *)
Theorem url_output_only_on_success (h : host) (arg : option inputs) (st : state) :
  let '(c, r) := default h arg (init st) in
  match r with
  | Ok o =>
      filter is_output (trace c) = [Output "url" (out_url o)]
      /\ st_url (store c) = Some (out_url o)
  | Throw _ => filter is_output (trace c) = []
  end.
Proof.
  start_default. answers; cbn; try split; reflexivity.
Qed.

(** ** The theorems at the sample deployments *)

Lemma site_cwd : process_cwd site <> EmptyString.
Proof. discriminate. Qed.

Lemma site_resolve (p : string) : path_resolve site p <> EmptyString.
Proof. discriminate. Qed.

Lemma site_id : context_resourceId site <> EmptyString.
Proof. discriminate. Qed.

Lemma default_saves_once_at_the_end_witness :
  snd (default broken_site (Some inputs_b) (init state_a))
    = Throw (Error (hook_failure "npm run build"
                      (mk_error "Command failed" (Some "sh: 1: gulp: not found"))))
  /\ store (fst (default broken_site (Some inputs_b) (init state_a))) = state_a.
Proof.
  pose proof (default_saves_once_at_the_end broken_site (Some inputs_b) state_a) as H.
  destruct (default broken_site (Some inputs_b) (init state_a)) as [c r] eqn:E.
  assert (Hr : r = snd (default broken_site (Some inputs_b) (init state_a)))
    by (rewrite E; reflexivity).
  vm_compute in Hr. destruct H as [H _].
  split; [exact Hr | exact (H _ Hr)].
Defined.

Lemma drift_unbinds_after_binds_witness :
  let route53 := mk_client (Some "us-west-2") "credentials" in
  filter is_dns (trace (fst (default site (Some inputs_b) (init state_a)))) =
    [ConfigureDomainForBucket route53 "b.com" (Some "us-west-2") None;
     ConfigureDomainForBucket route53 "www.b.com" (Some "us-west-2") None;
     ConfigureDomainForBucket route53 "a.com" (Some "eu-west-1") (Some "DELETE");
     ConfigureDomainForBucket route53 "www.a.com" (Some "eu-west-1") (Some "DELETE")].
Proof.
  assert (Hne : "a.com" <> "b.com") by discriminate.
  pose proof (drift_unbinds_after_binds site (Some inputs_b) state_a
                "a.com" "b.com" eq_refl eq_refl eq_refl eq_refl Hne) as H.
  cbv zeta in H.
  destruct (default site (Some inputs_b) (init state_a)) as [c r] eqn:E.
  assert (Hr : exists o, r = Ok o).
  { exists (mk_outputs "http://a.com.s3-website-us-west-2.amazonaws.com"
                       [("API", JStr "https://x")] (Some "http://b.com")).
    change r with (snd (c, r)). rewrite <- E. vm_compute. reflexivity. }
  destruct Hr as [o Hr]. destruct H as [_ [_ H]].
  exact (H o Hr).
Defined.

Lemma drift_check_unbinds_old_domain_witness :
  (let route53 := mk_client (Some "us-west-2") "credentials" in
   filter is_unbind (trace (fst (default site (Some inputs_b) (init state_a)))) =
     [ConfigureDomainForBucket route53 "a.com" (Some "eu-west-1") (Some "DELETE");
      ConfigureDomainForBucket route53 "www.a.com" (Some "eu-west-1") (Some "DELETE")])
  /\ (let route53 := mk_client (Some "us-east-1") "credentials" in
      filter is_unbind (trace (fst (default site None (init state_a)))) =
        [ConfigureDomainForBucket route53 "a.com" (Some "eu-west-1") (Some "DELETE");
         ConfigureDomainForBucket route53 "www.a.com" (Some "eu-west-1")
                                  (Some "DELETE")])
  /\ filter is_unbind (trace (fst (default site (Some inputs_a) (init state_a)))) = [].
Proof.
  assert (Hb : st_domain state_a <> in_domain (given (Some inputs_b)))
    by discriminate.
  assert (Hn : st_domain state_a <> in_domain (given None)) by discriminate.
  pose proof (drift_check_unbinds_old_domain site (Some inputs_b) state_a) as H.
  pose proof (drift_check_unbinds_old_domain site None state_a) as H'.
  pose proof (drift_check_unbinds_old_domain site (Some inputs_a) state_a) as H''.
  cbv zeta in H, H', H''.
  destruct (default site (Some inputs_b) (init state_a)) as [c r] eqn:E.
  destruct (default site None (init state_a)) as [c' r'] eqn:E'.
  destruct (default site (Some inputs_a) (init state_a)) as [c'' r''] eqn:E''.
  assert (Hr : exists o, r = Ok o).
  { exists (mk_outputs "http://a.com.s3-website-us-west-2.amazonaws.com"
                       [("API", JStr "https://x")] (Some "http://b.com")).
    change r with (snd (c, r)). rewrite <- E. vm_compute. reflexivity. }
  assert (Hr' : exists o, r' = Ok o).
  { exists (mk_outputs "http://a.com.s3-website-us-east-1.amazonaws.com" [] None).
    change r' with (snd (c', r')). rewrite <- E'. vm_compute. reflexivity. }
  destruct Hr as [o Hr]. destruct Hr' as [o' Hr'].
  destruct H as [H _]. destruct (H "a.com" eq_refl eq_refl Hb) as [_ Hall].
  destruct H' as [H' _]. destruct (H' "a.com" eq_refl eq_refl Hn) as [_ Hall'].
  destruct H'' as [_ H''].
  split; [exact (Hall o Hr) | split; [exact (Hall' o' Hr') | ]].
  apply H''. right. reflexivity.
Defined.

Lemma bucketName_resolution_witness :
  bucketName (normalize site (mk_state (Some "x") None None None)
                        (given (Some inputs_b))) = "x"
  /\ bucketName (normalize site empty_state (given (Some inputs_b))) = "b.com"
  /\ bucketName (normalize site empty_state (given None)) = context_resourceId site
  /\ region (normalize site empty_state (given None)) = "us-east-1".
Proof.
  pose proof (bucketName_resolution site (mk_state (Some "x") None None None)
                (Some inputs_b)) as [_ [Hx _]].
  pose proof (bucketName_resolution site empty_state (Some inputs_b))
    as [_ [_ [Hd _]]].
  pose proof (bucketName_resolution site empty_state None) as [_ [_ [_ Hid]]].
  destruct (Hid eq_refl eq_refl) as [Hname [_ Hregion]].
  split; [|split; [|split]].
  - exact (Hx eq_refl).
  - exact (Hd "b.com" eq_refl eq_refl eq_refl).
  - exact Hname.
  - exact (Hregion eq_refl).
Defined.

Lemma failed_hook_aborts_before_upload_witness :
  let err := mk_error "Command failed" (Some "sh: 1: gulp: not found") in
  existsb is_exec (trace (fst (default broken_site (Some inputs_b) (init state_a))))
    = true
  /\ existsb is_upload (trace (fst (default broken_site (Some inputs_b) (init state_a))))
    = false
  /\ snd (default broken_site (Some inputs_b) (init state_a))
    = Throw (Error (hook_failure "npm run build" err)).
Proof.
  intros err.
  pose proof (failed_hook_aborts_before_upload broken_site (Some inputs_b) state_a
                "npm run build" err eq_refl eq_refl (fun t => eq_refl)) as H.
  destruct (default broken_site (Some inputs_b) (init state_a)) as [c r] eqn:E.
  assert (Hx : existsb is_exec (trace c) = true).
  { change c with (fst (c, r)). rewrite <- E. vm_compute. reflexivity. }
  destruct H as [Hup [_ [_ Hmsg]]]. destruct (Hmsg Hx) as [Hr _].
  split; [exact Hx | split; [exact Hup | exact Hr]].
Defined.

Lemma remove_calls_witness :
  let route53 := mk_client (Some "eu-west-1") "credentials" in
  awaited (trace (fst (remove site (init state_a)))) =
    [Load "@serverless/aws-s3" "websiteBucket";
     Remove "websiteBucket";
     ConfigureDomainForBucket route53 "a.com" (Some "eu-west-1") (Some "DELETE");
     ConfigureDomainForBucket route53 "www.a.com" (Some "eu-west-1") (Some "DELETE");
     Load "@serverless/aws-s3" "redirectBucket";
     Remove "redirectBucket";
     Save empty_state]
  /\ store (fst (remove site (init state_a))) = empty_state
  /\ awaited (trace (fst (remove site (init (mk_state (Some "x") None None None))))) =
       [Load "@serverless/aws-s3" "websiteBucket";
        Remove "websiteBucket";
        Save empty_state].
Proof.
  pose proof (remove_calls site state_a) as Ha.
  pose proof (remove_calls site (mk_state (Some "x") None None None)) as Hx.
  cbv zeta in Ha, Hx.
  destruct (remove site (init state_a)) as [c r] eqn:E.
  destruct (remove site (init (mk_state (Some "x") None None None)))
    as [c' r'] eqn:E'.
  assert (Hr : r = Ok tt).
  { change r with (snd (c, r)). rewrite <- E. vm_compute. reflexivity. }
  assert (Hr' : r' = Ok tt).
  { change r' with (snd (c', r')). rewrite <- E'. vm_compute. reflexivity. }
  destruct Ha as [Ha _]. destruct (Ha "a.com" eq_refl eq_refl) as [_ Hall].
  destruct (Hall Hr) as [Hcalls Hstore].
  destruct Hx as [_ [Hx _]]. destruct (Hx eq_refl) as [_ Hall'].
  destruct (Hall' Hr') as [Hcalls' _].
  split; [exact Hcalls | split; [exact Hstore | exact Hcalls']].
Defined.

Lemma domain_step_calls_witness :
  let client := mk_client (Some "us-west-2") "credentials" in
  filter is_domain_step (trace (fst (default site (Some inputs_b) (init state_a)))) =
    [Load "@serverless/aws-s3" "redirectBucket";
     Deploy "redirectBucket" "www.b.com" false "us-west-2";
     ConfigureBucketForRedirect client "www.b.com" "b.com";
     ConfigureDomainForBucket client "b.com" (Some "us-west-2") None;
     ConfigureDomainForBucket client "www.b.com" (Some "us-west-2") None]
  /\ filter is_domain_step (trace (fst (default site None (init state_a)))) = [].
Proof.
  pose proof (domain_step_calls site (Some inputs_b) state_a) as H.
  pose proof (domain_step_calls site None state_a) as H'.
  cbv zeta in H, H'.
  destruct (default site (Some inputs_b) (init state_a)) as [c r] eqn:E.
  destruct (default site None (init state_a)) as [c' r'] eqn:E'.
  assert (Hr : exists o, r = Ok o).
  { exists (mk_outputs "http://a.com.s3-website-us-west-2.amazonaws.com"
                       [("API", JStr "https://x")] (Some "http://b.com")).
    change r with (snd (c, r)). rewrite <- E. vm_compute. reflexivity. }
  destruct Hr as [o Hr]. destruct H as [H _].
  destruct (H "b.com" eq_refl eq_refl) as [_ Hall].
  destruct H' as [_ H'].
  split; [exact (Hall o Hr) | exact (H' eq_refl)].
Defined.


Lemma successful_deploy_state_and_outputs_witness :
  let url := "http://a.com.s3-website-us-west-2.amazonaws.com" in
  snd (default site (Some inputs_b) (init state_a))
    = Ok (mk_outputs url [("API", JStr "https://x")] (Some "http://b.com"))
  /\ store (fst (default site (Some inputs_b) (init state_a)))
    = mk_state (Some "a.com") (Some "b.com") (Some "us-west-2") (Some url).
Proof.
  intros url.
  assert (Hr : snd (default site (Some inputs_b) (init state_a))
               = Ok (mk_outputs url [("API", JStr "https://x")] (Some "http://b.com")))
    by (vm_compute; reflexivity).
  destruct (successful_deploy_state_and_outputs site (Some inputs_b) state_a _ Hr)
    as [t [name [Hname [Hstore _]]]].
  split; [exact Hr|].
  cbn in Hname. injection Hname as <-. exact Hstore.
Defined.

Lemma code_root_never_falsy_witness :
  root (normalize site state_a (given (Some inputs_b))) = "/srv/site"
  /\ root (normalize site state_a (given (Some inputs_b))) <> EmptyString
  /\ existsb is_write_file (trace (fst (default site (Some inputs_b) (init state_a))))
     = true.
Proof.
  pose proof (code_root_never_falsy site (Some inputs_b) state_a
                site_cwd site_resolve) as H.
  cbv zeta in H.
  destruct (default site (Some inputs_b) (init state_a)) as [c r] eqn:E.
  assert (Hr : exists o, r = Ok o).
  { exists (mk_outputs "http://a.com.s3-website-us-west-2.amazonaws.com"
                       [("API", JStr "https://x")] (Some "http://b.com")).
    change r with (snd (c, r)). rewrite <- E. vm_compute. reflexivity. }
  destruct Hr as [o Hr]. destruct H as [Hne [_ [_ [_ [_ Hw]]]]].
  split; [reflexivity | split; [exact Hne | exact (Hw o Hr)]].
Defined.

Lemma deploy_call_order_witness :
  let aws := mk_client (Some "us-west-2") "credentials" in
  exists name,
    awaited (trace (fst (default site (Some inputs_b) (init state_a)))) =
      [Load "@serverless/aws-s3" "websiteBucket";
       Deploy "websiteBucket" "a.com" false "us-west-2";
       ConfigureBucketForHosting aws "a.com";
       Load "@serverless/aws-s3" "redirectBucket";
       Deploy "redirectBucket" "www.b.com" false "us-west-2";
       ConfigureBucketForRedirect aws "www.b.com" "b.com";
       ConfigureDomainForBucket aws "b.com" (Some "us-west-2") None;
       ConfigureDomainForBucket aws "www.b.com" (Some "us-west-2") None;
       ConfigureDomainForBucket aws "a.com" (Some "eu-west-1") (Some "DELETE");
       ConfigureDomainForBucket aws "www.a.com" (Some "eu-west-1") (Some "DELETE");
       WriteFile "/srv/site/env.js" (env_script [("API", JStr "https://x")]);
       Exec "npm run build" "/srv/site";
       Upload "websiteBucket" "/srv/site/dist";
       Save (mk_state (Some "a.com") (Some "b.com") (Some "us-west-2")
                      (Some (website_url name "us-west-2")))].
Proof.
  pose proof (deploy_call_order site (Some inputs_b) state_a) as H.
  cbv zeta in H.
  destruct (default site (Some inputs_b) (init state_a)) as [c r] eqn:E.
  assert (Hr : exists o, r = Ok o).
  { exists (mk_outputs "http://a.com.s3-website-us-west-2.amazonaws.com"
                       [("API", JStr "https://x")] (Some "http://b.com")).
    change r with (snd (c, r)). rewrite <- E. vm_compute. reflexivity. }
  destruct Hr as [o Hr]. destruct H as [name [_ Hall]].
  exists name. exact (Hall o Hr).
Defined.

Lemma upload_directory_witness :
  filter is_upload (trace (fst (default site (Some inputs_b) (init state_a))))
    = [Upload "websiteBucket" "/srv/site/dist"].
Proof.
  pose proof (upload_directory site (Some inputs_b) state_a) as H.
  cbv zeta in H.
  destruct (default site (Some inputs_b) (init state_a)) as [c r] eqn:E.
  assert (Hr : exists o, r = Ok o).
  { exists (mk_outputs "http://a.com.s3-website-us-west-2.amazonaws.com"
                       [("API", JStr "https://x")] (Some "http://b.com")).
    change r with (snd (c, r)). rewrite <- E. vm_compute. reflexivity. }
  destruct Hr as [o Hr].
  destruct H as [dir [_ [Hall [_ [_ [Hsrc _]]]]]].
  assert (Hj : path_join site
                 (root (normalize site state_a (given (Some inputs_b)))) "dist"
               <> EmptyString) by discriminate.
  rewrite (Hsrc _ "dist" eq_refl eq_refl eq_refl Hj) in Hall.
  exact (Hall o Hr).
Defined.

Lemma redeploy_keeps_configuration_witness :
  bucketName
    (normalize broken_site
       (store (fst (default site (Some inputs_b) (init empty_state))))
       (given (Some inputs_a))) = "b.com".
Proof.
  assert (Hok : snd (default site (Some inputs_b) (init empty_state))
                = Ok (mk_outputs "http://b.com.s3-website-us-west-2.amazonaws.com"
                                 [("API", JStr "https://x")] (Some "http://b.com")))
    by (vm_compute; reflexivity).
  destruct (redeploy_keeps_configuration site (Some inputs_b) empty_state _
              site_id Hok) as [Hname _].
  exact (Hname broken_site (Some inputs_a)).
Defined.

Lemma remove_undoes_binds_witness :
  map dns_record
    (filter is_dns
       (trace (fst (remove site
                      (init (store (fst (default site (Some inputs_b)
                                           (init empty_state)))))))))
    = [Some ("b.com", Some "us-west-2"); Some ("www.b.com", Some "us-west-2")].
Proof.
  assert (Hok : snd (default site (Some inputs_b) (init empty_state))
                = Ok (mk_outputs "http://b.com.s3-website-us-west-2.amazonaws.com"
                                 [("API", JStr "https://x")] (Some "http://b.com")))
    by (vm_compute; reflexivity).
  assert (Hrm : snd (remove site
                       (init (store (fst (default site (Some inputs_b)
                                            (init empty_state))))))
                = Ok tt)
    by (vm_compute; reflexivity).
  destruct (remove_undoes_binds site site (Some inputs_b) empty_state _ Hok Hrm)
    as [Hsame _].
  rewrite Hsame. vm_compute. reflexivity.
Defined.
